(** * Testrack client: the authentication state store

    A shallow embedding of [client/src/contexts/AuthContext.jsx]: the
    reducer [authReducer] with its [initialState] and [AUTH_ACTIONS], and
    the asynchronous action functions of [AuthProvider] ([loadUser],
    [login], [register], [logout], [updateProfile], [forgotPassword],
    [resetPassword], [clearError]).  The second copy of the provider kept
    in the repository, which wraps three of the action functions in a
    rethrowing [try]/[catch], is embedded in [Module Part000].

    JavaScript values are an inductive type, objects are finite maps from
    property names to values, and the effects of the action functions
    (dispatching to the store, calling the API client, logging, raising)
    are a state-and-exception monad over an explicit [World]. *)

From stdpp Require Import base strings list gmap fin_maps pretty.

#[local] Set Warnings "-register-all".
#[local] Open Scope string_scope.
#[local] Open Scope list_scope.

(** ** JavaScript values *)

(** The values the store and the API client exchange.  An object is the
    finite map of its own enumerable properties; an array is represented
    the same way, by its index properties.  Numbers are the integers. *)
Inductive value : Type :=
  | VUndefined
  | VNull
  | VBool (b : bool)
  | VNum (n : Z)
  | VStr (s : string)
  | VObj (o : gmap string value).

Module JS.

(** [v == null]: the value is [null] or [undefined]. *)
Definition is_absent (v : value) : bool :=
  match v with
  | VUndefined | VNull => true
  | _ => false
  end.

(** ToBoolean, as used by [!token]. *)
Definition truthy (v : value) : bool :=
  match v with
  | VUndefined | VNull => false
  | VBool b => b
  | VNum n => negb (n =? 0)%Z
  | VStr s => negb (String.eqb s "")
  | VObj _ => true
  end.

(** The index properties of a string primitive, from index [i] on. *)
Fixpoint string_props (i : nat) (s : string) : gmap string value :=
  match s with
  | EmptyString => ∅
  | String c rest => <[pretty i := VStr (String c EmptyString)]> (string_props (S i) rest)
  end.

(** The properties an object spread [{ ...v }] copies: nothing for
    [null], [undefined], booleans and numbers, the characters of a
    string, the own enumerable properties of an object. *)
Definition own_props (v : value) : gmap string value :=
  match v with
  | VObj o => o
  | VStr s => string_props 0 s
  | _ => ∅
  end.

(** [{ ...a, ...b }]: the properties of [a], overridden and extended by
    those of [b]. *)
Definition spread2 (a b : value) : value := VObj (own_props b ∪ own_props a).

(** [switch (v) { case c: ... }] with a string constant [c]: strict
    equality, so only a string equal to [c] selects the case. *)
Definition case_matches (v : value) (c : string) : bool :=
  match v with
  | VStr s => String.eqb s c
  | _ => false
  end.

End JS.

(** ** The store *)

Record AuthState : Type := {
  user : value;
  isAuthenticated : bool;
  isLoading : bool;
  error : value;
}.

Definition initialState : AuthState := {|
  user := VNull;
  isAuthenticated := false;
  isLoading := true;
  error := VNull;
|}.

Module AUTH_ACTIONS.
Definition LOGIN_START := "LOGIN_START".
Definition LOGIN_SUCCESS := "LOGIN_SUCCESS".
Definition LOGIN_FAILURE := "LOGIN_FAILURE".
Definition LOGOUT := "LOGOUT".
Definition REGISTER_START := "REGISTER_START".
Definition REGISTER_SUCCESS := "REGISTER_SUCCESS".
Definition REGISTER_FAILURE := "REGISTER_FAILURE".
Definition LOAD_USER_START := "LOAD_USER_START".
Definition LOAD_USER_SUCCESS := "LOAD_USER_SUCCESS".
Definition LOAD_USER_FAILURE := "LOAD_USER_FAILURE".
Definition UPDATE_PROFILE_SUCCESS := "UPDATE_PROFILE_SUCCESS".
Definition CLEAR_ERROR := "CLEAR_ERROR".
End AUTH_ACTIONS.

(** An action object: [action.type] and [action.payload] are the only
    properties the reducer reads.  A missing property reads [undefined]. *)
Record Action : Type := {
  type : value;
  payload : value;
}.

(** [{ type: t, payload: p }] *)
Definition action_with (t : string) (p : value) : Action :=
  {| type := VStr t; payload := p |}.

(** [{ type: t }] *)
Definition action_of (t : string) : Action :=
  {| type := VStr t; payload := VUndefined |}.

(** The reducer.  [...state] copies the four fields of the store; the
    fields written after it replace the copies. *)
Definition authReducer (state : AuthState) (action : Action) : AuthState :=
  let on := JS.case_matches (type action) in
  if on AUTH_ACTIONS.LOGIN_START
     || on AUTH_ACTIONS.REGISTER_START
     || on AUTH_ACTIONS.LOAD_USER_START
  then {| user := user state;
          isAuthenticated := isAuthenticated state;
          isLoading := true;
          error := VNull |}
  else if on AUTH_ACTIONS.LOGIN_SUCCESS
          || on AUTH_ACTIONS.REGISTER_SUCCESS
          || on AUTH_ACTIONS.LOAD_USER_SUCCESS
  then {| user := payload action;
          isAuthenticated := true;
          isLoading := false;
          error := VNull |}
  else if on AUTH_ACTIONS.LOGIN_FAILURE
          || on AUTH_ACTIONS.REGISTER_FAILURE
          || on AUTH_ACTIONS.LOAD_USER_FAILURE
  then {| user := VNull;
          isAuthenticated := false;
          isLoading := false;
          error := payload action |}
  else if on AUTH_ACTIONS.LOGOUT
  then {| user := VNull;
          isAuthenticated := false;
          isLoading := false;
          error := VNull |}
  else if on AUTH_ACTIONS.UPDATE_PROFILE_SUCCESS
  then {| user := JS.spread2 (user state) (payload action);
          isAuthenticated := isAuthenticated state;
          isLoading := isLoading state;
          error := VNull |}
  else if on AUTH_ACTIONS.CLEAR_ERROR
  then {| user := user state;
          isAuthenticated := isAuthenticated state;
          isLoading := isLoading state;
          error := VNull |}
  else state.

(** The store after a sequence of dispatched actions. *)
Definition reduceAll (actions : list Action) (state : AuthState) : AuthState :=
  fold_left authReducer actions state.

(** ** Effects of the action functions *)

(** How a call ends: it returns a value or raises one. *)
Inductive completion (A : Type) : Type :=
  | Normal (a : A)
  | Throw (e : value).
Arguments Normal {A} a.
Arguments Throw {A} e.

(** What an action function can touch: the store behind [dispatch], the
    trace of the actions dispatched so far, the lines written with
    [console.error], and the private state of the API client (its token
    storage, the server behind it). *)
Record World (ApiState : Type) : Type := {
  store : AuthState;
  dispatched : list Action;
  console : list (list value);
  api_state : ApiState;
}.
Arguments store {ApiState} w.
Arguments dispatched {ApiState} w.
Arguments console {ApiState} w.
Arguments api_state {ApiState} w.

(** A computation over the world that returns or raises. *)
Definition Eff (ApiState A : Type) : Type :=
  World ApiState → completion A * World ApiState.

#[global] Instance Eff_ret {ApiState} : MRet (Eff ApiState) :=
  λ A a w, (Normal a, w).

#[global] Instance Eff_bind {ApiState} : MBind (Eff ApiState) :=
  λ A B k c w,
    match c w with
    | (Normal a, w') => k a w'
    | (Throw e, w') => (Throw e, w')
    end.

(** A call of the API client: it sees and changes only the client's own
    state.  An awaited call whose promise rejects is a [Throw]. *)
Definition ApiCall (ApiState : Type) : Type :=
  ApiState → completion value * ApiState.

(** [apiService], the collaborator imported from
    [../services/apiService.js]; its implementation is outside this
    component, so the action functions are parametric in it.  A method
    that shares its name with an action function carries the prefix
    [api_]. *)
Record ApiService (ApiState : Type) : Type := {
  getAuthToken : ApiCall ApiState;
  removeAuthToken : ApiCall ApiState;
  getProfile : ApiCall ApiState;
  api_login : value → ApiCall ApiState;
  api_register : value → ApiCall ApiState;
  api_logout : ApiCall ApiState;
  api_updateProfile : value → ApiCall ApiState;
  api_forgotPassword : value → ApiCall ApiState;
  api_resetPassword : value → ApiCall ApiState;
}.
Arguments getAuthToken {ApiState} a.
Arguments removeAuthToken {ApiState} a.
Arguments getProfile {ApiState} a.
Arguments api_login {ApiState} a _.
Arguments api_register {ApiState} a _.
Arguments api_logout {ApiState} a.
Arguments api_updateProfile {ApiState} a _.
Arguments api_forgotPassword {ApiState} a _.
Arguments api_resetPassword {ApiState} a _.

Section Effects.
Context {ApiState : Type}.

(** [dispatch(action)]: the store takes the reducer's result. *)
Definition dispatch (action : Action) : Eff ApiState unit :=
  λ w, (Normal (),
        {| store := authReducer (store w) action;
           dispatched := dispatched w ++ [action];
           console := console w;
           api_state := api_state w |}).

(** [await apiService.method(...)], or a synchronous call of it. *)
Definition call (c : ApiCall ApiState) : Eff ApiState value :=
  λ w, let '(r, st) := c (api_state w) in
       (r, {| store := store w;
              dispatched := dispatched w;
              console := console w;
              api_state := st |}).

(** [console.error(...args)] *)
Definition console_error (args : list value) : Eff ApiState unit :=
  λ w, (Normal (),
        {| store := store w;
           dispatched := dispatched w;
           console := console w ++ [args];
           api_state := api_state w |}).

(** [throw e] *)
Definition throw {A} (e : value) : Eff ApiState A :=
  λ w, (Throw e, w).

(** [try { body } catch (e) { handler }] *)
Definition try_catch {A} (body : Eff ApiState A)
    (handler : value → Eff ApiState A) : Eff ApiState A :=
  λ w, match body w with
       | (Normal a, w') => (Normal a, w')
       | (Throw e, w') => handler e w'
       end.

(** [try { body } finally { final }]: [final] runs however [body]
    ends, and its own raise replaces the completion of [body]. *)
Definition try_finally {A} (body : Eff ApiState A)
    (final : Eff ApiState unit) : Eff ApiState A :=
  λ w, let '(r, w') := body w in
       match final w' with
       | (Normal _, w'') => (r, w'')
       | (Throw e, w'') => (Throw e, w'')
       end.

(** The [TypeError] raised by reading property [k] of [null] or
    [undefined] (the message is the one V8 prints). *)
Definition type_error (v : value) (k : string) : value :=
  VObj {[ "name" := VStr "TypeError";
          "message" := VStr ("Cannot read properties of "
                             +:+ (if v is VNull then "null" else "undefined")
                             +:+ " (reading '" +:+ k +:+ "')") ]}.

(** [v.k]: a property read.  It raises on [null] and [undefined]; a
    property that is missing reads [undefined]. *)
Definition member (v : value) (k : string) : Eff ApiState value :=
  match v with
  | VUndefined | VNull => throw (type_error v k)
  | _ => mret (default VUndefined (JS.own_props v !! k))
  end.

End Effects.

(** ** The action functions of [AuthProvider] *)

Section AuthProvider.
Context {ApiState : Type} (apiService : ApiService ApiState).

(** The effect that runs once when the provider mounts. *)
Definition loadUser : Eff ApiState value :=
  token ← call (getAuthToken apiService);
  if negb (JS.truthy token) then
    dispatch (action_with AUTH_ACTIONS.LOAD_USER_FAILURE (VStr "No token found"));;
    mret VUndefined
  else
    try_catch
      (dispatch (action_of AUTH_ACTIONS.LOAD_USER_START);;
       user ← call (getProfile apiService);
       dispatch (action_with AUTH_ACTIONS.LOAD_USER_SUCCESS user);;
       mret VUndefined)
      (λ error,
       message ← member error "message";
       dispatch (action_with AUTH_ACTIONS.LOAD_USER_FAILURE message);;
       call (removeAuthToken apiService);;
       mret VUndefined).

Definition login (credentials : value) : Eff ApiState value :=
  try_catch
    (dispatch (action_of AUTH_ACTIONS.LOGIN_START);;
     response ← call (api_login apiService credentials);
     user ← member response "user";
     dispatch (action_with AUTH_ACTIONS.LOGIN_SUCCESS user);;
     mret response)
    (λ error,
     message ← member error "message";
     dispatch (action_with AUTH_ACTIONS.LOGIN_FAILURE message);;
     throw error).

Definition register (userData : value) : Eff ApiState value :=
  try_catch
    (dispatch (action_of AUTH_ACTIONS.REGISTER_START);;
     response ← call (api_register apiService userData);
     user ← member response "user";
     dispatch (action_with AUTH_ACTIONS.REGISTER_SUCCESS user);;
     mret response)
    (λ error,
     message ← member error "message";
     dispatch (action_with AUTH_ACTIONS.REGISTER_FAILURE message);;
     throw error).

Definition logout : Eff ApiState value :=
  try_finally
    (try_catch
       (call (api_logout apiService);; mret VUndefined)
       (λ error,
        console_error [VStr "Logout error:"; error];;
        mret VUndefined))
    (dispatch (action_of AUTH_ACTIONS.LOGOUT)).

Definition updateProfile (profileData : value) : Eff ApiState value :=
  updatedUser ← call (api_updateProfile apiService profileData);
  dispatch (action_with AUTH_ACTIONS.UPDATE_PROFILE_SUCCESS updatedUser);;
  mret updatedUser.

Definition forgotPassword (email : value) : Eff ApiState value :=
  call (api_forgotPassword apiService email).

Definition resetPassword (resetData : value) : Eff ApiState value :=
  call (api_resetPassword apiService resetData).

Definition clearError : Eff ApiState value :=
  dispatch (action_of AUTH_ACTIONS.CLEAR_ERROR);;
  mret VUndefined.

End AuthProvider.

(** The copy of the provider that wraps the three delegating action
    functions in [try { ... } catch (error) { throw error; }]. *)
Module Part000.
Section AuthProvider.
Context {ApiState : Type} (apiService : ApiService ApiState).

Definition updateProfile (profileData : value) : Eff ApiState value :=
  try_catch
    (updatedUser ← call (api_updateProfile apiService profileData);
     dispatch (action_with AUTH_ACTIONS.UPDATE_PROFILE_SUCCESS updatedUser);;
     mret updatedUser)
    (λ error, throw error).

Definition forgotPassword (email : value) : Eff ApiState value :=
  try_catch
    (call (api_forgotPassword apiService email))
    (λ error, throw error).

Definition resetPassword (resetData : value) : Eff ApiState value :=
  try_catch
    (call (api_resetPassword apiService resetData))
    (λ error, throw error).

End AuthProvider.
End Part000.

(** The world in which the provider mounts. *)
Definition mount {ApiState} (st : ApiState) : World ApiState :=
  {| store := initialState; dispatched := []; console := []; api_state := st |}.

(** ** Vocabulary of the properties *)

Definition start_types : list string :=
  [AUTH_ACTIONS.LOGIN_START; AUTH_ACTIONS.REGISTER_START; AUTH_ACTIONS.LOAD_USER_START].

Definition success_types : list string :=
  [AUTH_ACTIONS.LOGIN_SUCCESS; AUTH_ACTIONS.REGISTER_SUCCESS; AUTH_ACTIONS.LOAD_USER_SUCCESS].

Definition failure_types : list string :=
  [AUTH_ACTIONS.LOGIN_FAILURE; AUTH_ACTIONS.REGISTER_FAILURE; AUTH_ACTIONS.LOAD_USER_FAILURE].

(** The store of a logged-out session. *)
Definition loggedOut : AuthState :=
  {| user := VNull; isAuthenticated := false; isLoading := false; error := VNull |}.

(** [isAuthenticated] is true exactly when a user is present. *)
Definition auth_iff_user (s : AuthState) : Prop :=
  isAuthenticated s = true ↔ JS.is_absent (user s) = false.

(** The action is one of the three success actions. *)
Definition is_success (a : Action) : bool :=
  JS.case_matches (type a) AUTH_ACTIONS.LOGIN_SUCCESS
  || JS.case_matches (type a) AUTH_ACTIONS.REGISTER_SUCCESS
  || JS.case_matches (type a) AUTH_ACTIONS.LOAD_USER_SUCCESS.

Definition is_profile_updated (a : Action) : bool :=
  JS.case_matches (type a) AUTH_ACTIONS.UPDATE_PROFILE_SUCCESS.

(** An action that arrives as the API contract promises: a success action
    carries a user, and a profile update arrives while a user is present. *)
Definition carries_user (s : AuthState) (a : Action) : bool :=
  (if is_success a then negb (JS.is_absent (payload a)) else true)
  && (if is_profile_updated a then negb (JS.is_absent (user s)) else true).

(** Every action of the sequence, applied in order from [s], arrives as
    [carries_user] asks. *)
Fixpoint all_carry_user (s : AuthState) (actions : list Action) : bool :=
  match actions with
  | [] => true
  | a :: rest => carries_user s a && all_carry_user (authReducer s a) rest
  end.

(** The world after a call that changed only the API client's state. *)
Definition only_api_moved {ApiState} (w : World ApiState) (st : ApiState)
    : World ApiState :=
  {| store := store w; dispatched := dispatched w;
     console := console w; api_state := st |}.

(** The world after one action was dispatched and the API client moved. *)
Definition dispatched_one {ApiState} (w : World ApiState) (a : Action)
    (st : ApiState) : World ApiState :=
  {| store := authReducer (store w) a; dispatched := dispatched w ++ [a];
     console := console w; api_state := st |}.

(** ** A sample API client

    Its state is the stored token.  With a token the calls succeed; without
    one, every call to the server is rejected.  Logging in stores a token,
    registering answers with an object that has no [user] property, and
    logging out fails on the network after the token was dropped. *)
Module Sample.

Definition profile : gmap string value :=
  {[ "name" := VStr "A"; "email" := VStr "a@b.c" ]}.

(** The store while the sample user is signed in. *)
Definition signedIn : AuthState :=
  {| user := VObj profile; isAuthenticated := true;
     isLoading := false; error := VNull |}.

Definition api_error (msg : string) : value :=
  VObj {[ "message" := VStr msg ]}.

Definition guarded (answer : value) : ApiCall (option string) :=
  λ st, match st with
        | Some _ => (Normal answer, st)
        | None => (Throw (api_error "Unauthorized"), st)
        end.

Definition apiService : ApiService (option string) := {|
  getAuthToken := λ st, (Normal (from_option VStr VNull st), st);
  removeAuthToken := λ _, (Normal VUndefined, None);
  getProfile := guarded (VObj profile);
  api_login := λ _ _, (Normal (VObj {[ "user" := VObj profile ]}), Some "t0");
  api_register := λ _ _, (Normal (VObj ∅), Some "t1");
  api_logout := λ _, (Throw (api_error "Network Error"), None);
  api_updateProfile := λ data, guarded (JS.spread2 (VObj profile) data);
  api_forgotPassword := λ _, guarded (VObj {[ "success" := VBool true ]});
  api_resetPassword := λ _, guarded (VObj {[ "success" := VBool true ]});
|}.

(** The world while the sample user is signed in, with token [t0]. *)
Definition signedInWorld : World (option string) :=
  {| store := signedIn; dispatched := []; console := [];
     api_state := Some "t0" |}.

Definition rename : value := VObj {[ "name" := VStr "X" ]}.

End Sample.

(** ** Further vocabulary *)

(** The twelve action types the reducer has a case for. *)
Definition action_types : list string :=
  [ AUTH_ACTIONS.LOGIN_START; AUTH_ACTIONS.LOGIN_SUCCESS; AUTH_ACTIONS.LOGIN_FAILURE;
    AUTH_ACTIONS.LOGOUT;
    AUTH_ACTIONS.REGISTER_START; AUTH_ACTIONS.REGISTER_SUCCESS;
    AUTH_ACTIONS.REGISTER_FAILURE;
    AUTH_ACTIONS.LOAD_USER_START; AUTH_ACTIONS.LOAD_USER_SUCCESS;
    AUTH_ACTIONS.LOAD_USER_FAILURE;
    AUTH_ACTIONS.UPDATE_PROFILE_SUCCESS; AUTH_ACTIONS.CLEAR_ERROR ].

(** The action's type selects one of the cases of the reducer. *)
Definition is_recognized (a : Action) : bool :=
  existsb (JS.case_matches (type a)) action_types.

Definition is_failure (a : Action) : bool :=
  existsb (JS.case_matches (type a)) failure_types.

Definition is_logout (a : Action) : bool :=
  JS.case_matches (type a) AUTH_ACTIONS.LOGOUT.

(** The action writes all four fields of the store: a success, a failure
    or a logout. *)
Definition overwrites_store (a : Action) : bool :=
  is_success a || is_failure a || is_logout a.

(** What [v.k] reads on a value that is neither [null] nor [undefined]. *)
Definition read (v : value) (k : string) : value :=
  default VUndefined (JS.own_props v !! k).

(** An error is held only by a store that is logged out and at rest. *)
Definition error_only_when_logged_out (s : AuthState) : Prop :=
  error s = VNull
  ∨ (user s = VNull ∧ isAuthenticated s = false ∧ isLoading s = false).

(** The store after a failure with message [m]. *)
Definition failed (m : value) : AuthState :=
  {| user := VNull; isAuthenticated := false; isLoading := false; error := m |}.

(** The store after a success with user [u]. *)
Definition signedInAs (u : value) : AuthState :=
  {| user := u; isAuthenticated := true; isLoading := false; error := VNull |}.

(** The world after the actions [actions] were dispatched in order, with
    the store they leave and the API client in state [st]. *)
Definition after_dispatching {ApiState} (w : World ApiState)
    (actions : list Action) (s : AuthState) (st : ApiState) : World ApiState :=
  {| store := s; dispatched := dispatched w ++ actions;
     console := console w; api_state := st |}.

(** The answer of a login or register call obeys the contract
    [-> {user}]: when the call returns an object, its [user] is present. *)
Definition answers_with_user (r : completion value) : bool :=
  match r with
  | Normal response =>
      JS.is_absent response || negb (JS.is_absent (read response "user"))
  | Throw _ => true
  end.

(** The answer of [getProfile] obeys the contract [-> profile]: when the
    call returns, the profile is present. *)
Definition answers_with_profile (r : completion value) : bool :=
  match r with
  | Normal profile => negb (JS.is_absent profile)
  | Throw _ => true
  end.

(** ** A stub API client

    Every call to the server ends the way [answer] says; the token is the
    client's state, read by [getAuthToken] and dropped by
    [removeAuthToken]. *)
Module Stub.

Definition apiService (answer : completion value) : ApiService (option string) := {|
  getAuthToken := λ st, (Normal (from_option VStr VNull st), st);
  removeAuthToken := λ _, (Normal VUndefined, None);
  getProfile := λ st, (answer, st);
  api_login := λ _ st, (answer, st);
  api_register := λ _ st, (answer, st);
  api_logout := λ st, (answer, st);
  api_updateProfile := λ _ st, (answer, st);
  api_forgotPassword := λ _ st, (answer, st);
  api_resetPassword := λ _ st, (answer, st);
|}.

(** A world with a stored token [t] and an arbitrary store. *)
Definition world (s : AuthState) (token : option string) : World (option string) :=
  {| store := s; dispatched := []; console := []; api_state := token |}.

Definition rejected : value := VObj {[ "message" := VStr "Invalid credentials" ]}.

Definition accepted : value :=
  VObj {[ "user" := VObj {[ "name" := VStr "A" ]}; "token" := VStr "t0" ]}.

End Stub.

(** ** Proof steps *)

(** Split a membership in one of the three-element type lists. *)
Ltac each_type H :=
  simpl in H; destruct H as [<- | [<- | [<- | []]]].

(** Decide the [switch] of the reducer on an arbitrary action type. *)
Ltac decide_switch :=
  repeat match goal with
         | |- context [String.eqb ?a ?b] => destruct (String.eqb a b); simpl
         end.

(** Run an action function: unfold the monad and the primitive effects. *)
Ltac run_eff :=
  unfold mbind, mret, Eff_bind, Eff_ret, try_catch, try_finally, call,
    dispatch, console_error, throw, only_api_moved, dispatched_one;
  simpl.

(** Split on which case of the [switch] the action type [t] selects,
    and evaluate the reducer there. *)
Ltac by_type t :=
  repeat match goal with
         | |- context [String.eqb t ?c] =>
             destruct (String.eqb_spec t c) as [-> | ?]
         end;
  cbn -[JS.spread2].

(** Expose the tests of the reducer on an action with a string type. *)
Ltac expose_switch :=
  unfold is_recognized, overwrites_store, is_success, is_failure, is_logout,
    is_profile_updated, authReducer;
  cbn -[JS.spread2].

(** ** The reducer *)

Lemma authReducer_start s t p :
  In t start_types →
  authReducer s (action_with t p)
  = {| user := user s; isAuthenticated := isAuthenticated s;
       isLoading := true; error := VNull |}.
Proof. intros H. each_type H; reflexivity. Qed.

Lemma authReducer_profile_updated s p :
  authReducer s (action_with AUTH_ACTIONS.UPDATE_PROFILE_SUCCESS p)
  = {| user := JS.spread2 (user s) p; isAuthenticated := isAuthenticated s;
       isLoading := isLoading s; error := VNull |}.
Proof. reflexivity. Qed.

Lemma authReducer_unrecognized s a :
  (∀ t, type a ≠ VStr t) → authReducer s a = s.
Proof.
  intros H. destruct a as [[| | b | n | t | o] p]; try reflexivity.
  by destruct (H t).
Qed.

(** One admissible step keeps the equivalence. *)
Lemma auth_iff_user_step s a :
  auth_iff_user s → carries_user s a = true → auth_iff_user (authReducer s a).
Proof.
  destruct a as [t p], s as [u au lo er].
  unfold auth_iff_user, carries_user, is_success, is_profile_updated, authReducer.
  destruct t; simpl; try tauto.
  decide_switch; intros Hs Hp;
    destruct (JS.is_absent p), (JS.is_absent u), au;
    simpl in *; intuition congruence.
Qed.

Lemma auth_iff_user_run actions : ∀ s,
  auth_iff_user s → all_carry_user s actions = true →
  auth_iff_user (reduceAll actions s).
Proof.
  induction actions as [|a rest IH]; intros s Hs Hall; simpl in *; [done|].
  apply andb_true_iff in Hall as [Ha Hrest].
  apply IH; [by apply auth_iff_user_step | done].
Qed.

Lemma authReducer_success s t p :
  In t success_types →
  authReducer s (action_with t p)
  = {| user := p; isAuthenticated := true; isLoading := false; error := VNull |}.
Proof. intros H. each_type H; reflexivity. Qed.

Lemma authReducer_failure s t m :
  In t failure_types →
  authReducer s (action_with t m)
  = {| user := VNull; isAuthenticated := false; isLoading := false; error := m |}.
Proof. intros H. each_type H; reflexivity. Qed.

Lemma authReducer_logout s :
  authReducer s (action_of AUTH_ACTIONS.LOGOUT) = loggedOut.
Proof. reflexivity. Qed.

(** The merge of a spread, property by property. *)
Lemma spread2_lookup a b k :
  (JS.own_props b ∪ JS.own_props a) !! k
  = match JS.own_props b !! k with
    | Some v => Some v
    | None => JS.own_props a !! k
    end.
Proof.
  rewrite lookup_union.
  by destruct (JS.own_props b !! k), (JS.own_props a !! k).
Qed.

Lemma own_props_absent v : JS.is_absent v = true → JS.own_props v = ∅.
Proof. by destruct v. Qed.

(** ** Claims about the reducer *)

(** C2: for every state and every success action (LOGIN_SUCCESS,
    REGISTER_SUCCESS, LOAD_USER_SUCCESS) with payload [p], the reduced
    state has [user = p], [isAuthenticated = true], [isLoading = false]
    and no error. *)
Theorem success_action_result s t p :
  In t success_types →
  let s' := authReducer s (action_with t p) in
  user s' = p ∧ isAuthenticated s' = true ∧ isLoading s' = false
  ∧ error s' = VNull.
Proof. intros H s'. subst s'. by rewrite authReducer_success. Qed.

Lemma success_action_result_witness :
  In AUTH_ACTIONS.REGISTER_SUCCESS success_types
  ∧ let s' := authReducer loggedOut
                (action_with AUTH_ACTIONS.REGISTER_SUCCESS (VObj Sample.profile)) in
    user s' = VObj Sample.profile ∧ isAuthenticated s' = true
    ∧ isLoading s' = false ∧ error s' = VNull.
Proof.
  split; [simpl; tauto |].
  apply (success_action_result loggedOut AUTH_ACTIONS.REGISTER_SUCCESS
           (VObj Sample.profile)).
  simpl; tauto.
Defined.

(** C3: for every state and every failure action (LOGIN_FAILURE,
    REGISTER_FAILURE, LOAD_USER_FAILURE) with payload [m], the reduced
    state has no user, [isAuthenticated = false], [isLoading = false] and
    [error = m]. *)
Theorem failure_action_result s t m :
  In t failure_types →
  let s' := authReducer s (action_with t m) in
  user s' = VNull ∧ isAuthenticated s' = false ∧ isLoading s' = false
  ∧ error s' = m.
Proof. intros H s'. subst s'. by rewrite authReducer_failure. Qed.

Lemma failure_action_result_witness :
  In AUTH_ACTIONS.LOGIN_FAILURE failure_types
  ∧ let s' := authReducer initialState
                (action_with AUTH_ACTIONS.LOGIN_FAILURE (VStr "Invalid credentials")) in
    user s' = VNull ∧ isAuthenticated s' = false ∧ isLoading s' = false
    ∧ error s' = VStr "Invalid credentials".
Proof.
  split; [simpl; tauto |].
  apply (failure_action_result initialState AUTH_ACTIONS.LOGIN_FAILURE
           (VStr "Invalid credentials")).
  simpl; tauto.
Defined.

(** C8: for every state and every start action (LOGIN_START,
    REGISTER_START, LOAD_USER_START), whatever its payload, the reduced
    state has [isLoading = true] and no error. *)
Theorem start_action_result s t p :
  In t start_types →
  let s' := authReducer s (action_with t p) in
  isLoading s' = true ∧ error s' = VNull.
Proof. intros H s'. subst s'. by rewrite authReducer_start. Qed.

Lemma start_action_result_witness :
  In AUTH_ACTIONS.LOGIN_START start_types
  ∧ let s' := authReducer loggedOut (action_of AUTH_ACTIONS.LOGIN_START) in
    isLoading s' = true ∧ error s' = VNull.
Proof.
  split; [simpl; tauto |].
  apply (start_action_result loggedOut AUTH_ACTIONS.LOGIN_START VUndefined).
  simpl; tauto.
Defined.

(** C9: for every state and every start action, the reduced state has the
    [user] and the [isAuthenticated] of the state it started from. *)
Theorem start_action_frame s t p :
  In t start_types →
  let s' := authReducer s (action_with t p) in
  user s' = user s ∧ isAuthenticated s' = isAuthenticated s.
Proof. intros H s'. subst s'. by rewrite authReducer_start. Qed.

Lemma start_action_frame_witness :
  In AUTH_ACTIONS.LOAD_USER_START start_types
  ∧ let s' := authReducer Sample.signedIn
                (action_of AUTH_ACTIONS.LOAD_USER_START) in
    user s' = VObj Sample.profile ∧ isAuthenticated s' = true.
Proof.
  split; [simpl; tauto |].
  apply (start_action_frame Sample.signedIn AUTH_ACTIONS.LOAD_USER_START
           VUndefined).
  simpl; tauto.
Defined.

(** C6: reducing a profile-updated action gives a user object that holds,
    under every property name, the payload's value when the payload has
    one and the previous user's value otherwise, and clears the error.
    With payload [{name:"X"}] on the user [{name:"A", email:"a@b.c"}] the
    user becomes [{name:"X", email:"a@b.c"}] with no error. *)
Theorem profile_updated_merges :
  (∀ s p,
     let s' := authReducer s (action_with AUTH_ACTIONS.UPDATE_PROFILE_SUCCESS p) in
     error s' = VNull
     ∧ ∃ o, user s' = VObj o
            ∧ ∀ k, o !! k = match JS.own_props p !! k with
                            | Some v => Some v
                            | None => JS.own_props (user s) !! k
                            end)
  ∧ (∀ au lo er,
       authReducer
         {| user := VObj {[ "name" := VStr "A"; "email" := VStr "a@b.c" ]};
            isAuthenticated := au; isLoading := lo; error := er |}
         (action_with AUTH_ACTIONS.UPDATE_PROFILE_SUCCESS
            (VObj {[ "name" := VStr "X" ]}))
       = {| user := VObj {[ "name" := VStr "X"; "email" := VStr "a@b.c" ]};
            isAuthenticated := au; isLoading := lo; error := VNull |}).
Proof.
  split.
  - intros s p s'. subst s'. rewrite authReducer_profile_updated. simpl.
    split; [done|]. eexists. split; [done|]. apply spread2_lookup.
  - intros au lo er. rewrite authReducer_profile_updated. by vm_compute.
Qed.

(** C10: reducing a profile-updated action on a state whose user is absent
    gives a user made of exactly the payload's properties, and
    [isAuthenticated] and [isLoading] keep their values. *)
Theorem profile_updated_on_absent_user s p :
  JS.is_absent (user s) = true →
  let s' := authReducer s (action_with AUTH_ACTIONS.UPDATE_PROFILE_SUCCESS p) in
  user s' = VObj (JS.own_props p)
  ∧ isAuthenticated s' = isAuthenticated s
  ∧ isLoading s' = isLoading s.
Proof.
  intros H s'. subst s'. rewrite authReducer_profile_updated. simpl.
  unfold JS.spread2. rewrite (own_props_absent _ H).
  by rewrite (right_id_L ∅ (∪)).
Qed.

Lemma profile_updated_on_absent_user_witness :
  JS.is_absent (user initialState) = true
  ∧ let s' := authReducer initialState
                (action_with AUTH_ACTIONS.UPDATE_PROFILE_SUCCESS
                   (VObj {[ "name" := VStr "X" ]})) in
    user s' = VObj {[ "name" := VStr "X" ]}
    ∧ isAuthenticated s' = false
    ∧ isLoading s' = true.
Proof.
  split; [reflexivity |].
  exact (profile_updated_on_absent_user initialState
           (VObj {[ "name" := VStr "X" ]}) eq_refl).
Defined.

(** A profile update never touches the two flags, whatever the user. *)
Lemma profile_updated_keeps_flags s p :
  let s' := authReducer s (action_with AUTH_ACTIONS.UPDATE_PROFILE_SUCCESS p) in
  isAuthenticated s' = isAuthenticated s ∧ isLoading s' = isLoading s.
Proof. done. Qed.

(** ** The equivalence between [isAuthenticated] and the user *)

Lemma auth_iff_user_initial : auth_iff_user initialState.
Proof. split; discriminate. Qed.

(** C1, as stated, fails: from the initial state, a LOGIN_SUCCESS action
    without payload gives a state with [isAuthenticated = true] and no
    user. *)
Lemma success_without_user_breaks_equivalence :
  ¬ auth_iff_user (reduceAll [action_of AUTH_ACTIONS.LOGIN_SUCCESS] initialState).
Proof. intros [H _]. specialize (H eq_refl). discriminate. Qed.

(** The other direction fails as well: a profile update that arrives
    while nobody is signed in makes a user without authenticating. *)
Lemma profile_update_without_user_breaks_equivalence :
  ¬ auth_iff_user
      (reduceAll [action_with AUTH_ACTIONS.UPDATE_PROFILE_SUCCESS (VObj ∅)]
         initialState).
Proof. intros [_ H]. specialize (H eq_refl). discriminate. Qed.

(** C1, amended: for every state reached from the initial state by reducing
    actions of which every success action carries a user and every
    profile update arrives while a user is present, [isAuthenticated] is
    true if and only if a user is present. *)
Theorem auth_iff_user_reachable actions :
  all_carry_user initialState actions = true →
  auth_iff_user (reduceAll actions initialState).
Proof. apply auth_iff_user_run, auth_iff_user_initial. Qed.

Lemma auth_iff_user_reachable_witness :
  let actions :=
    [ action_with AUTH_ACTIONS.LOAD_USER_FAILURE (VStr "No token found");
      action_of AUTH_ACTIONS.LOGIN_START;
      action_with AUTH_ACTIONS.LOGIN_SUCCESS (VObj Sample.profile);
      action_with AUTH_ACTIONS.UPDATE_PROFILE_SUCCESS (VObj {[ "name" := VStr "X" ]});
      action_of AUTH_ACTIONS.CLEAR_ERROR;
      action_of "PING";
      action_of AUTH_ACTIONS.LOGOUT ] in
  all_carry_user initialState actions = true
  ∧ auth_iff_user (reduceAll actions initialState).
Proof.
  intros actions.
  split; [reflexivity |].
  exact (auth_iff_user_reachable actions eq_refl).
Defined.

(** ** Claims about the action functions *)

Section ActionFunctions.
Context {ApiState : Type} (api : ApiService ApiState).

(** [login] dispatches whatever [response.user] reads: when the
    response has no such property, the store is authenticated with an
    undefined user. *)
Lemma login_response_without_user credentials w o st :
  api_login api credentials (api_state w) = (Normal (VObj o), st) →
  o !! "user" = None →
  store (login api credentials w).2
  = {| user := VUndefined; isAuthenticated := true;
       isLoading := false; error := VNull |}.
Proof.
  intros Hcall Hnone. unfold login, member. run_eff.
  rewrite Hcall. simpl. by rewrite Hnone.
Qed.

Lemma updateProfile_failure data w e st :
  api_updateProfile api data (api_state w) = (Throw e, st) →
  updateProfile api data w = (Throw e, only_api_moved w st)
  ∧ Part000.updateProfile api data w = (Throw e, only_api_moved w st).
Proof.
  intros H. unfold updateProfile, Part000.updateProfile. run_eff.
  by rewrite H.
Qed.

Lemma updateProfile_success data w u st :
  api_updateProfile api data (api_state w) = (Normal u, st) →
  let a := action_with AUTH_ACTIONS.UPDATE_PROFILE_SUCCESS u in
  updateProfile api data w = (Normal u, dispatched_one w a st)
  ∧ Part000.updateProfile api data w = (Normal u, dispatched_one w a st).
Proof.
  intros H. unfold updateProfile, Part000.updateProfile. run_eff.
  by rewrite H.
Qed.

Lemma forgotPassword_failure email w e st :
  api_forgotPassword api email (api_state w) = (Throw e, st) →
  forgotPassword api email w = (Throw e, only_api_moved w st)
  ∧ Part000.forgotPassword api email w = (Throw e, only_api_moved w st).
Proof.
  intros H. unfold forgotPassword, Part000.forgotPassword. run_eff.
  by rewrite H.
Qed.

Lemma resetPassword_failure data w e st :
  api_resetPassword api data (api_state w) = (Throw e, st) →
  resetPassword api data w = (Throw e, only_api_moved w st)
  ∧ Part000.resetPassword api data w = (Throw e, only_api_moved w st).
Proof.
  intros H. unfold resetPassword, Part000.resetPassword. run_eff.
  by rewrite H.
Qed.

(** C4: [logout] returns normally, with the LOGOUT action dispatched
    once and the store logged out (no user, not authenticated, not
    loading, no error), whether the API client's logout call returns or
    raises. *)
Theorem logout_always_logs_out (w : World ApiState) :
  ∃ w', logout api w = (Normal VUndefined, w')
        ∧ store w' = loggedOut
        ∧ dispatched w' = dispatched w ++ [action_of AUTH_ACTIONS.LOGOUT].
Proof.
  unfold logout. run_eff.
  destruct (api_logout api (api_state w)) as [[v | e] st]; simpl;
    eexists; (split; [reflexivity |]); simpl; by rewrite authReducer_logout.
Qed.

(** C5: when the stored token is absent as the provider mounts, [loadUser]
    dispatches the single action LOAD_USER_FAILURE with the message
    "No token found", and the store goes from the initial state, whose
    [isLoading] is true, to no user, not authenticated, not loading and
    that message as error. *)
Theorem loadUser_without_token (st st' : ApiState) (token : value) :
  getAuthToken api st = (Normal token, st') →
  JS.is_absent token = true →
  isLoading (store (mount st)) = true
  ∧ ∃ w', loadUser api (mount st) = (Normal VUndefined, w')
          ∧ dispatched w'
            = [action_with AUTH_ACTIONS.LOAD_USER_FAILURE (VStr "No token found")]
          ∧ store w'
            = {| user := VNull; isAuthenticated := false;
                 isLoading := false; error := VStr "No token found" |}.
Proof.
  intros Hcall Habsent. split; [reflexivity |].
  unfold loadUser. run_eff. rewrite Hcall.
  destruct token; try discriminate; simpl; eauto.
Qed.

(** C7: when the API client's call raised by [updateProfile],
    [forgotPassword] or [resetPassword] fails, the action function
    raises the same error and neither the store nor the trace of
    dispatched actions changes; when the call of [updateProfile]
    succeeds, exactly one UPDATE_PROFILE_SUCCESS action carrying the
    returned profile is dispatched.  This holds for both copies of the
    provider. *)
Theorem delegating_actions_propagate_failure (data : value) (w : World ApiState) :
  (∀ e st, api_updateProfile api data (api_state w) = (Throw e, st) →
     updateProfile api data w = (Throw e, only_api_moved w st)
     ∧ Part000.updateProfile api data w = (Throw e, only_api_moved w st))
  ∧ (∀ e st, api_forgotPassword api data (api_state w) = (Throw e, st) →
     forgotPassword api data w = (Throw e, only_api_moved w st)
     ∧ Part000.forgotPassword api data w = (Throw e, only_api_moved w st))
  ∧ (∀ e st, api_resetPassword api data (api_state w) = (Throw e, st) →
     resetPassword api data w = (Throw e, only_api_moved w st)
     ∧ Part000.resetPassword api data w = (Throw e, only_api_moved w st))
  ∧ (∀ u st, api_updateProfile api data (api_state w) = (Normal u, st) →
     let a := action_with AUTH_ACTIONS.UPDATE_PROFILE_SUCCESS u in
     updateProfile api data w = (Normal u, dispatched_one w a st)
     ∧ Part000.updateProfile api data w = (Normal u, dispatched_one w a st)).
Proof.
  repeat split;
    first [ by apply updateProfile_failure
          | by apply forgotPassword_failure
          | by apply resetPassword_failure
          | by apply updateProfile_success ].
Qed.

End ActionFunctions.

Lemma loadUser_without_token_witness :
  getAuthToken Sample.apiService None = (Normal VNull, None)
  ∧ JS.is_absent VNull = true
  ∧ isLoading (store (mount (None : option string))) = true
  ∧ ∃ w', loadUser Sample.apiService (mount None) = (Normal VUndefined, w')
          ∧ dispatched w'
            = [action_with AUTH_ACTIONS.LOAD_USER_FAILURE (VStr "No token found")]
          ∧ store w'
            = {| user := VNull; isAuthenticated := false;
                 isLoading := false; error := VStr "No token found" |}.
Proof.
  split; [reflexivity |]. split; [reflexivity |].
  exact (loadUser_without_token Sample.apiService None None VNull eq_refl eq_refl).
Defined.

Lemma delegating_actions_propagate_failure_witness :
  let e := Sample.api_error "Unauthorized" in
  let a := action_with AUTH_ACTIONS.UPDATE_PROFILE_SUCCESS
             (VObj {[ "name" := VStr "X"; "email" := VStr "a@b.c" ]}) in
  (api_updateProfile Sample.apiService Sample.rename None = (Throw e, None)
   ∧ updateProfile Sample.apiService Sample.rename (mount None)
     = (Throw e, mount None)
   ∧ Part000.updateProfile Sample.apiService Sample.rename (mount None)
     = (Throw e, mount None))
  ∧ (api_forgotPassword Sample.apiService Sample.rename None = (Throw e, None)
     ∧ forgotPassword Sample.apiService Sample.rename (mount None)
       = (Throw e, mount None)
     ∧ Part000.forgotPassword Sample.apiService Sample.rename (mount None)
       = (Throw e, mount None))
  ∧ (api_resetPassword Sample.apiService Sample.rename None = (Throw e, None)
     ∧ resetPassword Sample.apiService Sample.rename (mount None)
       = (Throw e, mount None)
     ∧ Part000.resetPassword Sample.apiService Sample.rename (mount None)
       = (Throw e, mount None))
  ∧ (api_updateProfile Sample.apiService Sample.rename (Some "t0")
     = (Normal (payload a), Some "t0")
     ∧ updateProfile Sample.apiService Sample.rename Sample.signedInWorld
       = (Normal (payload a), dispatched_one Sample.signedInWorld a (Some "t0"))
     ∧ Part000.updateProfile Sample.apiService Sample.rename Sample.signedInWorld
       = (Normal (payload a), dispatched_one Sample.signedInWorld a (Some "t0"))).
Proof.
  intros e a.
  pose proof (delegating_actions_propagate_failure Sample.apiService
                Sample.rename (mount None)) as (Hu & Hf & Hr & _).
  pose proof (delegating_actions_propagate_failure Sample.apiService
                Sample.rename Sample.signedInWorld) as (_ & _ & _ & Hs).
  assert (Hcall : api_updateProfile Sample.apiService Sample.rename (Some "t0")
                  = (Normal (payload a), Some "t0")) by (by vm_compute).
  split; [split; [reflexivity | exact (Hu e None eq_refl)] |].
  split; [split; [reflexivity | exact (Hf e None eq_refl)] |].
  split; [split; [reflexivity | exact (Hr e None eq_refl)] |].
  split; [exact Hcall | exact (Hs (payload a) (Some "t0") Hcall)].
Defined.

(** ** The scenarios, run on the sample API client *)

Example spread_of_string :
  JS.spread2 VNull (VStr "ab") = VObj {[ "0" := VStr "a"; "1" := VStr "b" ]}.
Proof. by vm_compute. Qed.

Example unrecognized_action_is_identity :
  authReducer Sample.signedIn (action_of "PING") = Sample.signedIn.
Proof. reflexivity. Qed.

Example loadUser_with_valid_token :
  loadUser Sample.apiService (mount (Some "t0"))
  = (Normal VUndefined,
     {| store := Sample.signedIn;
        dispatched := [ action_of AUTH_ACTIONS.LOAD_USER_START;
                        action_with AUTH_ACTIONS.LOAD_USER_SUCCESS
                          (VObj Sample.profile) ];
        console := [];
        api_state := Some "t0" |}).
Proof. reflexivity. Qed.

Example login_then_logout :
  (credentials ← login Sample.apiService VNull; logout Sample.apiService)
    (mount None)
  = (Normal VUndefined,
     {| store := loggedOut;
        dispatched := [ action_of AUTH_ACTIONS.LOGIN_START;
                        action_with AUTH_ACTIONS.LOGIN_SUCCESS (VObj Sample.profile);
                        action_of AUTH_ACTIONS.LOGOUT ];
        console := [[VStr "Logout error:"; Sample.api_error "Network Error"]];
        api_state := None |}).
Proof. by vm_compute. Qed.

Example register_without_user_in_response :
  store (register Sample.apiService VNull (mount None)).2
  = {| user := VUndefined; isAuthenticated := true;
       isLoading := false; error := VNull |}.
Proof. by vm_compute. Qed.

Example clearError_clears_only_error :
  store (clearError
           {| store := {| user := VNull; isAuthenticated := false;
                          isLoading := false; error := VStr "Unauthorized" |};
              dispatched := []; console := [];
              api_state := (None : option string) |}).2
  = loggedOut.
Proof. reflexivity. Qed.


(** ** More on the reducer *)

Lemma authReducer_default s a :
  is_recognized a = false → authReducer s a = s.
Proof.
  destruct a as [[| | b | n | t | o] p]; try reflexivity.
  expose_switch. by_type t; intros H; done.
Qed.

Lemma spread2_twice u p : JS.spread2 (JS.spread2 u p) p = JS.spread2 u p.
Proof.
  unfold JS.spread2. simpl. f_equal.
  by rewrite (assoc_L (∪)), (idemp_L (∪)).
Qed.

Lemma spread2_assoc u p q :
  JS.spread2 (JS.spread2 u p) q = JS.spread2 u (JS.spread2 p q).
Proof. unfold JS.spread2. simpl. f_equal. by rewrite (assoc_L (∪)). Qed.

Lemma reduceAll_app pre post s :
  reduceAll (pre ++ post) s = reduceAll post (reduceAll pre s).
Proof. apply fold_left_app. Qed.

Lemma overwriting_forgets s s' a :
  overwrites_store a = true → authReducer s a = authReducer s' a.
Proof.
  destruct a as [[| | b | n | t | o] p]; try discriminate.
  expose_switch. by_type t; intros H; done.
Qed.

Lemma error_only_when_logged_out_step s a :
  error_only_when_logged_out s → error_only_when_logged_out (authReducer s a).
Proof.
  destruct a as [[| | b | n | t | o] p]; try done.
  unfold error_only_when_logged_out. expose_switch.
  by_type t; intros H; first [ by left | by right | done ].
Qed.

Lemma not_authenticated_step s a :
  is_success a = false → isAuthenticated s = false →
  isAuthenticated (authReducer s a) = false.
Proof.
  destruct a as [[| | b | n | t | o] p]; try done.
  expose_switch. by_type t; intros H1 H2; done.
Qed.

(** X1: an action whose type is none of the twelve action types, a type
    that is not a string included, leaves the store as it is. *)
Theorem unknown_type_is_noop s a :
  is_recognized a = false → authReducer s a = s.
Proof. apply authReducer_default. Qed.

Lemma unknown_type_is_noop_witness :
  is_recognized {| type := VNum 7; payload := VStr "x" |} = false
  ∧ is_recognized (action_with "login_success" (VObj Sample.profile)) = false
  ∧ authReducer Sample.signedIn {| type := VNum 7; payload := VStr "x" |}
    = Sample.signedIn
  ∧ authReducer loggedOut (action_with "login_success" (VObj Sample.profile))
    = loggedOut.
Proof.
  split; [reflexivity |]. split; [reflexivity |].
  split.
  - exact (unknown_type_is_noop Sample.signedIn
             {| type := VNum 7; payload := VStr "x" |} eq_refl).
  - exact (unknown_type_is_noop loggedOut
             (action_with "login_success" (VObj Sample.profile)) eq_refl).
Defined.

(** X2: reducing the same action twice gives the store that reducing it
    once gives, for every store and every action. *)
Theorem authReducer_idempotent s a :
  authReducer (authReducer s a) a = authReducer s a.
Proof.
  destruct a as [[| | b | n | t | o] p]; try reflexivity.
  unfold authReducer. cbn -[JS.spread2].
  by_type t; try reflexivity.
  by rewrite spread2_twice.
Qed.

(** X3: in every store reached from the initial state, by any actions at
    all, an error other than [null] is held only while the user is [null],
    [isAuthenticated] is false and [isLoading] is false. *)
Theorem error_only_when_logged_out_reachable actions :
  error_only_when_logged_out (reduceAll actions initialState).
Proof.
  assert (∀ s, error_only_when_logged_out s →
               error_only_when_logged_out (reduceAll actions s)) as Hrun.
  { induction actions as [| a rest IH]; intros s Hs; simpl; [done |].
    by apply IH, error_only_when_logged_out_step. }
  apply Hrun. by left.
Qed.

(** X4: a sequence of actions without a success action never
    authenticates: from the initial state it ends with
    [isAuthenticated = false]. *)
Theorem not_authenticated_without_success actions :
  forallb (λ a, negb (is_success a)) actions = true →
  isAuthenticated (reduceAll actions initialState) = false.
Proof.
  assert (∀ s, isAuthenticated s = false →
               forallb (λ a, negb (is_success a)) actions = true →
               isAuthenticated (reduceAll actions s) = false) as Hrun.
  { induction actions as [| a rest IH]; intros s Hs Hall; simpl in *; [done |].
    apply andb_true_iff in Hall as [Ha Hrest].
    apply IH; [| done].
    apply not_authenticated_step; [by apply negb_true_iff | done]. }
  by apply Hrun.
Qed.

Lemma not_authenticated_without_success_witness :
  let actions :=
    [ action_of AUTH_ACTIONS.LOGIN_START;
      action_with AUTH_ACTIONS.UPDATE_PROFILE_SUCCESS (VObj Sample.profile);
      action_with AUTH_ACTIONS.LOGIN_FAILURE (VStr "Invalid credentials");
      action_of AUTH_ACTIONS.CLEAR_ERROR;
      action_of AUTH_ACTIONS.REGISTER_START ] in
  forallb (λ a, negb (is_success a)) actions = true
  ∧ isAuthenticated (reduceAll actions initialState) = false.
Proof.
  intros actions. split; [reflexivity |].
  exact (not_authenticated_without_success actions eq_refl).
Defined.

(** X5: a success, a failure or a logout makes the store forget what came
    before: the store after the action and any further actions is the same
    whatever the store was and whatever actions preceded it. *)
Theorem overwriting_action_forgets_history pre a post s s' :
  overwrites_store a = true →
  reduceAll (pre ++ a :: post) s = reduceAll (a :: post) s'.
Proof.
  intros H. rewrite reduceAll_app. simpl.
  by rewrite (overwriting_forgets _ s' a H).
Qed.

Lemma overwriting_action_forgets_history_witness :
  let a := action_with AUTH_ACTIONS.LOAD_USER_FAILURE (VStr "expired") in
  let pre := [ action_of AUTH_ACTIONS.LOGIN_START;
               action_with AUTH_ACTIONS.LOGIN_SUCCESS (VObj Sample.profile) ] in
  let post := [ action_of AUTH_ACTIONS.REGISTER_START ] in
  overwrites_store a = true
  ∧ reduceAll (pre ++ a :: post) initialState
    = reduceAll (a :: post) Sample.signedIn.
Proof.
  intros a pre post. split; [reflexivity |].
  exact (overwriting_action_forgets_history pre a post initialState
           Sample.signedIn eq_refl).
Defined.

(** X6: two profile updates in a row amount to one update whose payload is
    the first payload overridden by the second, [{ ...p, ...q }]. *)
Theorem profile_updates_compose s p q :
  authReducer
    (authReducer s (action_with AUTH_ACTIONS.UPDATE_PROFILE_SUCCESS p))
    (action_with AUTH_ACTIONS.UPDATE_PROFILE_SUCCESS q)
  = authReducer s
      (action_with AUTH_ACTIONS.UPDATE_PROFILE_SUCCESS (JS.spread2 p q)).
Proof.
  rewrite !authReducer_profile_updated. simpl. by rewrite spread2_assoc.
Qed.

(** X7: a profile update whose payload is [null] or [undefined] keeps an
    object user with all its properties, and only clears the error. *)
Theorem profile_update_without_payload s o p :
  user s = VObj o →
  JS.is_absent p = true →
  authReducer s (action_with AUTH_ACTIONS.UPDATE_PROFILE_SUCCESS p)
  = {| user := user s; isAuthenticated := isAuthenticated s;
       isLoading := isLoading s; error := VNull |}.
Proof.
  intros Hu Hp. rewrite authReducer_profile_updated. f_equal.
  unfold JS.spread2. rewrite (own_props_absent _ Hp), Hu. simpl.
  by rewrite (left_id_L ∅ (∪)).
Qed.

Lemma profile_update_without_payload_witness :
  user Sample.signedIn = VObj Sample.profile
  ∧ JS.is_absent VUndefined = true
  ∧ authReducer Sample.signedIn
      (action_with AUTH_ACTIONS.UPDATE_PROFILE_SUCCESS VUndefined)
    = Sample.signedIn.
Proof.
  split; [reflexivity |]. split; [reflexivity |].
  exact (profile_update_without_payload Sample.signedIn Sample.profile
           VUndefined eq_refl eq_refl).
Defined.

(** ** More on the action functions *)

Section MoreActionFunctions.
Context {ApiState : Type} (api : ApiService ApiState).

Lemma try_catch_rethrow {A} (body : Eff ApiState A) w :
  try_catch body (λ error, throw error) w = body w.
Proof. unfold try_catch, throw. by destruct (body w) as [[a | e] w']. Qed.

(** X8: when the API call of [login] returns a response that is neither
    [null] nor [undefined], [login] returns that response after
    dispatching LOGIN_START and then LOGIN_SUCCESS with [response.user],
    and the store holds that user, authenticated, not loading, no error. *)
Theorem login_success credentials w response st :
  api_login api credentials (api_state w) = (Normal response, st) →
  JS.is_absent response = false →
  let u := read response "user" in
  login api credentials w
  = (Normal response,
     after_dispatching w
       [action_of AUTH_ACTIONS.LOGIN_START;
        action_with AUTH_ACTIONS.LOGIN_SUCCESS u]
       (signedInAs u) st).
Proof.
  intros Hcall Hpresent u. subst u. unfold login, member. run_eff.
  rewrite Hcall. unfold after_dispatching.
  destruct response; try discriminate; simpl; by rewrite <- app_assoc.
Qed.

(** X9: when the API call of [login] raises a value that is neither [null]
    nor [undefined], [login] raises the same value after dispatching
    LOGIN_START and then LOGIN_FAILURE with its [message], and the store
    is logged out with that message as error. *)
Theorem login_failure credentials w e st :
  api_login api credentials (api_state w) = (Throw e, st) →
  JS.is_absent e = false →
  let m := read e "message" in
  login api credentials w
  = (Throw e,
     after_dispatching w
       [action_of AUTH_ACTIONS.LOGIN_START;
        action_with AUTH_ACTIONS.LOGIN_FAILURE m]
       (failed m) st).
Proof.
  intros Hcall Hpresent m. subst m. unfold login, member. run_eff.
  rewrite Hcall. unfold after_dispatching.
  destruct e; try discriminate; simpl; by rewrite <- app_assoc.
Qed.

(** X10: when the API call of [login] returns [null] or [undefined],
    [login] does not return it: reading [response.user] raises, [login]
    raises that error, and the store records a failure with the error's
    message. *)
Theorem login_absent_response credentials w response st :
  api_login api credentials (api_state w) = (Normal response, st) →
  JS.is_absent response = true →
  ∃ e, JS.is_absent e = false
       ∧ login api credentials w
         = (Throw e,
            after_dispatching w
              [action_of AUTH_ACTIONS.LOGIN_START;
               action_with AUTH_ACTIONS.LOGIN_FAILURE (read e "message")]
              (failed (read e "message")) st).
Proof.
  intros Hcall Habsent. exists (type_error response "user").
  split; [done |]. unfold login, member. run_eff.
  rewrite Hcall. unfold after_dispatching.
  destruct response; try discriminate; simpl; by rewrite <- app_assoc.
Qed.

(** X11: when the API call of [login] raises [null] or [undefined], the
    handler itself raises on reading [error.message]: only LOGIN_START
    was dispatched, so the store keeps its user and [isAuthenticated] and
    stays with [isLoading = true]. *)
Theorem login_absent_rejection credentials w e st :
  api_login api credentials (api_state w) = (Throw e, st) →
  JS.is_absent e = true →
  ∃ e', JS.is_absent e' = false
        ∧ login api credentials w
          = (Throw e',
             after_dispatching w [action_of AUTH_ACTIONS.LOGIN_START]
               {| user := user (store w);
                  isAuthenticated := isAuthenticated (store w);
                  isLoading := true; error := VNull |} st).
Proof.
  intros Hcall Habsent. exists (type_error e "message").
  split; [done |]. unfold login, member. run_eff.
  rewrite Hcall.
  destruct e; try discriminate; reflexivity.
Qed.

(** X12: when the API call of [register] returns a response that is
    neither [null] nor [undefined], [register] returns it after
    dispatching REGISTER_START and then REGISTER_SUCCESS with
    [response.user], and the store holds that user, authenticated. *)
Theorem register_success userData w response st :
  api_register api userData (api_state w) = (Normal response, st) →
  JS.is_absent response = false →
  let u := read response "user" in
  register api userData w
  = (Normal response,
     after_dispatching w
       [action_of AUTH_ACTIONS.REGISTER_START;
        action_with AUTH_ACTIONS.REGISTER_SUCCESS u]
       (signedInAs u) st).
Proof.
  intros Hcall Hpresent u. subst u. unfold register, member. run_eff.
  rewrite Hcall. unfold after_dispatching.
  destruct response; try discriminate; simpl; by rewrite <- app_assoc.
Qed.

(** X13: when the API call of [register] raises a value that is neither
    [null] nor [undefined], [register] raises the same value after
    dispatching REGISTER_START and then REGISTER_FAILURE with its
    [message], and the store is logged out with that message as error. *)
Theorem register_failure userData w e st :
  api_register api userData (api_state w) = (Throw e, st) →
  JS.is_absent e = false →
  let m := read e "message" in
  register api userData w
  = (Throw e,
     after_dispatching w
       [action_of AUTH_ACTIONS.REGISTER_START;
        action_with AUTH_ACTIONS.REGISTER_FAILURE m]
       (failed m) st).
Proof.
  intros Hcall Hpresent m. subst m. unfold register, member. run_eff.
  rewrite Hcall. unfold after_dispatching.
  destruct e; try discriminate; simpl; by rewrite <- app_assoc.
Qed.

(** X14: [loadUser] treats every falsy token, the empty string included,
    as no token: from any world it dispatches only LOAD_USER_FAILURE with
    "No token found" and makes no further call to the API client. *)
Theorem loadUser_falsy_token w token st :
  getAuthToken api (api_state w) = (Normal token, st) →
  JS.truthy token = false →
  loadUser api w
  = (Normal VUndefined,
     after_dispatching w
       [action_with AUTH_ACTIONS.LOAD_USER_FAILURE (VStr "No token found")]
       (failed (VStr "No token found")) st).
Proof.
  intros Hcall Hfalsy. unfold loadUser. run_eff.
  rewrite Hcall. simpl. by rewrite Hfalsy.
Qed.

(** X15: with a truthy token and a profile call that returns, [loadUser]
    dispatches LOAD_USER_START and then LOAD_USER_SUCCESS with the
    profile, the store holds the profile, authenticated, and the token is
    not removed. *)
Theorem loadUser_success w token st profile st' :
  getAuthToken api (api_state w) = (Normal token, st) →
  JS.truthy token = true →
  getProfile api st = (Normal profile, st') →
  loadUser api w
  = (Normal VUndefined,
     after_dispatching w
       [action_of AUTH_ACTIONS.LOAD_USER_START;
        action_with AUTH_ACTIONS.LOAD_USER_SUCCESS profile]
       (signedInAs profile) st').
Proof.
  intros Htoken Htruthy Hprofile. unfold loadUser. run_eff.
  rewrite Htoken. simpl. rewrite Htruthy. simpl. rewrite Hprofile.
  unfold after_dispatching. simpl. by rewrite <- app_assoc.
Qed.


(** X17: [logout] writes one console line, "Logout error:" with the
    raised value, when the API call raises, and writes nothing when it
    returns; either way it returns, with LOGOUT dispatched and the API
    client in the state the call left. *)
Theorem logout_logs_the_error w :
  logout api w
  = (Normal VUndefined,
     {| store := loggedOut;
        dispatched := dispatched w ++ [action_of AUTH_ACTIONS.LOGOUT];
        console := console w
                   ++ match (api_logout api (api_state w)).1 with
                      | Normal _ => []
                      | Throw e => [[VStr "Logout error:"; e]]
                      end;
        api_state := (api_logout api (api_state w)).2 |}).
Proof.
  unfold logout. run_eff.
  destruct (api_logout api (api_state w)) as [[v | e] st]; simpl;
    by rewrite ?app_nil_r.
Qed.

(** X18: the rethrowing [try]/[catch] of the second copy of the provider
    changes nothing: its [updateProfile], [forgotPassword] and
    [resetPassword] end as those of the first copy do, in every world and
    for every API client. *)
Theorem rethrowing_copy_agrees data w :
  Part000.updateProfile api data w = updateProfile api data w
  ∧ Part000.forgotPassword api data w = forgotPassword api data w
  ∧ Part000.resetPassword api data w = resetPassword api data w.
Proof.
  unfold Part000.updateProfile, Part000.forgotPassword, Part000.resetPassword.
  by rewrite !try_catch_rethrow.
Qed.

(** X19: after a [login] that failed, [clearError] leaves the store
    logged out: no user, not authenticated, not loading, no error. *)
Theorem clearError_after_failed_login credentials w e st :
  api_login api credentials (api_state w) = (Throw e, st) →
  JS.is_absent e = false →
  store (clearError (login api credentials w).2).2 = loggedOut.
Proof.
  intros Hcall Hpresent. unfold login, clearError, member. run_eff.
  rewrite Hcall.
  destruct e; try discriminate; reflexivity.
Qed.

End MoreActionFunctions.


(** ** The equivalence under the action functions *)

Lemma auth_iff_user_signedInAs u :
  JS.is_absent u = false → auth_iff_user (signedInAs u).
Proof. intros H. by split. Qed.

Lemma auth_iff_user_failed m : auth_iff_user (failed m).
Proof. split; discriminate. Qed.

Lemma auth_iff_user_kept s lo er :
  auth_iff_user s →
  auth_iff_user {| user := user s; isAuthenticated := isAuthenticated s;
                   isLoading := lo; error := er |}.
Proof. done. Qed.


Section Equivalence.
Context {ApiState : Type} (api : ApiService ApiState).

(** X20: [login] keeps the equivalence between [isAuthenticated] and the
    presence of a user, whatever the API call does, provided that a
    response object it returns has a present [user]. *)
Theorem login_keeps_equivalence credentials w :
  auth_iff_user (store w) →
  answers_with_user (api_login api credentials (api_state w)).1 = true →
  auth_iff_user (store (login api credentials w).2).
Proof.
  intros Hinv Hanswer. unfold login, member. run_eff.
  destruct (api_login api credentials (api_state w)) as [[response | e] st];
    cbn [fst answers_with_user] in Hanswer.
  - destruct response; cbn [JS.is_absent orb negb] in Hanswer;
      first [ exact (auth_iff_user_failed _)
            | apply negb_true_iff in Hanswer;
              exact (auth_iff_user_signedInAs _ Hanswer) ].
  - destruct e;
      first [ exact (auth_iff_user_kept _ true VNull Hinv)
            | exact (auth_iff_user_failed _) ].
Qed.

(** X21: [register] keeps the equivalence between [isAuthenticated] and
    the presence of a user, whatever the API call does, provided that a
    response object it returns has a present [user]. *)
Theorem register_keeps_equivalence userData w :
  auth_iff_user (store w) →
  answers_with_user (api_register api userData (api_state w)).1 = true →
  auth_iff_user (store (register api userData w).2).
Proof.
  intros Hinv Hanswer. unfold register, member. run_eff.
  destruct (api_register api userData (api_state w)) as [[response | e] st];
    cbn [fst answers_with_user] in Hanswer.
  - destruct response; cbn [JS.is_absent orb negb] in Hanswer;
      first [ exact (auth_iff_user_failed _)
            | apply negb_true_iff in Hanswer;
              exact (auth_iff_user_signedInAs _ Hanswer) ].
  - destruct e;
      first [ exact (auth_iff_user_kept _ true VNull Hinv)
            | exact (auth_iff_user_failed _) ].
Qed.

(** X22: [loadUser] keeps the equivalence between [isAuthenticated] and
    the presence of a user, whatever the token and however the calls end,
    provided that a profile the API client returns is present. *)
Theorem loadUser_keeps_equivalence w :
  auth_iff_user (store w) →
  (∀ st, answers_with_profile (getProfile api st).1 = true) →
  auth_iff_user (store (loadUser api w).2).
Proof.
  intros Hinv Hanswer. unfold loadUser, member. run_eff.
  destruct (getAuthToken api (api_state w)) as [[token | e] st];
    [| exact Hinv].
  simpl. destruct (JS.truthy token); simpl;
    [| exact (auth_iff_user_failed _)].
  specialize (Hanswer st).
  destruct (getProfile api st) as [[profile | e] st'];
    cbn [fst answers_with_profile] in Hanswer.
  - apply negb_true_iff in Hanswer.
    exact (auth_iff_user_signedInAs _ Hanswer).
  - destruct e;
      try exact (auth_iff_user_kept _ true VNull Hinv);
      simpl; destruct (removeAuthToken api st') as [[v | e'] st''];
      exact (auth_iff_user_failed _).
Qed.

(** X23: [logout], [clearError], [forgotPassword] and [resetPassword] keep
    the equivalence between [isAuthenticated] and the presence of a user,
    however the API calls end. *)
Theorem quiet_actions_keep_equivalence data w :
  auth_iff_user (store w) →
  auth_iff_user (store (logout api w).2)
  ∧ auth_iff_user (store (clearError w).2)
  ∧ auth_iff_user (store (forgotPassword api data w).2)
  ∧ auth_iff_user (store (resetPassword api data w).2).
Proof.
  intros Hinv. unfold logout, clearError, forgotPassword, resetPassword.
  run_eff.
  destruct (api_logout api (api_state w)) as [[v | e] st],
    (api_forgotPassword api data (api_state w)) as [r1 st1],
    (api_resetPassword api data (api_state w)) as [r2 st2];
    (split; [exact (auth_iff_user_failed VNull) |]);
    (split; [exact (auth_iff_user_kept _ _ VNull Hinv) |]);
    split; exact Hinv.
Qed.


End Equivalence.

(** ** The added properties on the stub API client *)

Lemma login_success_witness :
  let api := Stub.apiService (Normal Stub.accepted) in
  let w := Stub.world initialState None in
  api_login api VNull (api_state w) = (Normal Stub.accepted, None)
  ∧ JS.is_absent Stub.accepted = false
  ∧ login api VNull w
    = (Normal Stub.accepted,
       after_dispatching w
         [action_of AUTH_ACTIONS.LOGIN_START;
          action_with AUTH_ACTIONS.LOGIN_SUCCESS (read Stub.accepted "user")]
         (signedInAs (read Stub.accepted "user")) None).
Proof.
  intros api w. split; [reflexivity |]. split; [reflexivity |].
  exact (login_success api VNull w Stub.accepted None eq_refl eq_refl).
Defined.

Lemma login_failure_witness :
  let api := Stub.apiService (Throw Stub.rejected) in
  let w := Stub.world Sample.signedIn (Some "t0") in
  api_login api VNull (api_state w) = (Throw Stub.rejected, Some "t0")
  ∧ JS.is_absent Stub.rejected = false
  ∧ login api VNull w
    = (Throw Stub.rejected,
       after_dispatching w
         [action_of AUTH_ACTIONS.LOGIN_START;
          action_with AUTH_ACTIONS.LOGIN_FAILURE (read Stub.rejected "message")]
         (failed (read Stub.rejected "message")) (Some "t0")).
Proof.
  intros api w. split; [reflexivity |]. split; [reflexivity |].
  exact (login_failure api VNull w Stub.rejected (Some "t0") eq_refl eq_refl).
Defined.

Lemma login_absent_response_witness :
  let api := Stub.apiService (Normal VUndefined) in
  let w := Stub.world initialState None in
  api_login api VNull (api_state w) = (Normal VUndefined, None)
  ∧ JS.is_absent VUndefined = true
  ∧ ∃ e, JS.is_absent e = false
         ∧ login api VNull w
           = (Throw e,
              after_dispatching w
                [action_of AUTH_ACTIONS.LOGIN_START;
                 action_with AUTH_ACTIONS.LOGIN_FAILURE (read e "message")]
                (failed (read e "message")) None).
Proof.
  intros api w. split; [reflexivity |]. split; [reflexivity |].
  exact (login_absent_response api VNull w VUndefined None eq_refl eq_refl).
Defined.

Lemma login_absent_rejection_witness :
  let api := Stub.apiService (Throw VUndefined) in
  let w := Stub.world loggedOut None in
  api_login api VNull (api_state w) = (Throw VUndefined, None)
  ∧ JS.is_absent VUndefined = true
  ∧ ∃ e', JS.is_absent e' = false
          ∧ login api VNull w
            = (Throw e',
               after_dispatching w [action_of AUTH_ACTIONS.LOGIN_START]
                 {| user := VNull; isAuthenticated := false;
                    isLoading := true; error := VNull |} None).
Proof.
  intros api w. split; [reflexivity |]. split; [reflexivity |].
  exact (login_absent_rejection api VNull w VUndefined None eq_refl eq_refl).
Defined.

Lemma register_success_witness :
  let api := Stub.apiService (Normal Stub.accepted) in
  let w := Stub.world initialState None in
  api_register api VNull (api_state w) = (Normal Stub.accepted, None)
  ∧ JS.is_absent Stub.accepted = false
  ∧ register api VNull w
    = (Normal Stub.accepted,
       after_dispatching w
         [action_of AUTH_ACTIONS.REGISTER_START;
          action_with AUTH_ACTIONS.REGISTER_SUCCESS (read Stub.accepted "user")]
         (signedInAs (read Stub.accepted "user")) None).
Proof.
  intros api w. split; [reflexivity |]. split; [reflexivity |].
  exact (register_success api VNull w Stub.accepted None eq_refl eq_refl).
Defined.

Lemma register_failure_witness :
  let api := Stub.apiService (Throw Stub.rejected) in
  let w := Stub.world initialState None in
  api_register api VNull (api_state w) = (Throw Stub.rejected, None)
  ∧ JS.is_absent Stub.rejected = false
  ∧ register api VNull w
    = (Throw Stub.rejected,
       after_dispatching w
         [action_of AUTH_ACTIONS.REGISTER_START;
          action_with AUTH_ACTIONS.REGISTER_FAILURE (read Stub.rejected "message")]
         (failed (read Stub.rejected "message")) None).
Proof.
  intros api w. split; [reflexivity |]. split; [reflexivity |].
  exact (register_failure api VNull w Stub.rejected None eq_refl eq_refl).
Defined.

Lemma loadUser_falsy_token_witness :
  let api := Stub.apiService (Normal (VObj Sample.profile)) in
  let w := Stub.world Sample.signedIn (Some "") in
  getAuthToken api (api_state w) = (Normal (VStr ""), Some "")
  ∧ JS.truthy (VStr "") = false
  ∧ loadUser api w
    = (Normal VUndefined,
       after_dispatching w
         [action_with AUTH_ACTIONS.LOAD_USER_FAILURE (VStr "No token found")]
         (failed (VStr "No token found")) (Some "")).
Proof.
  intros api w. split; [reflexivity |]. split; [reflexivity |].
  exact (loadUser_falsy_token api w (VStr "") (Some "") eq_refl eq_refl).
Defined.

Lemma loadUser_success_witness :
  let api := Stub.apiService (Normal (VObj Sample.profile)) in
  let w := mount (Some "t0") in
  getAuthToken api (api_state w) = (Normal (VStr "t0"), Some "t0")
  ∧ JS.truthy (VStr "t0") = true
  ∧ getProfile api (Some "t0") = (Normal (VObj Sample.profile), Some "t0")
  ∧ loadUser api w
    = (Normal VUndefined,
       after_dispatching w
         [action_of AUTH_ACTIONS.LOAD_USER_START;
          action_with AUTH_ACTIONS.LOAD_USER_SUCCESS (VObj Sample.profile)]
         (signedInAs (VObj Sample.profile)) (Some "t0")).
Proof.
  intros api w. split; [reflexivity |]. split; [reflexivity |].
  split; [reflexivity |].
  exact (loadUser_success api w (VStr "t0") (Some "t0") (VObj Sample.profile)
           (Some "t0") eq_refl eq_refl eq_refl).
Defined.


Lemma clearError_after_failed_login_witness :
  let api := Stub.apiService (Throw Stub.rejected) in
  let w := Stub.world Sample.signedIn (Some "t0") in
  api_login api VNull (api_state w) = (Throw Stub.rejected, Some "t0")
  ∧ JS.is_absent Stub.rejected = false
  ∧ store (clearError (login api VNull w).2).2 = loggedOut.
Proof.
  intros api w. split; [reflexivity |]. split; [reflexivity |].
  exact (clearError_after_failed_login api VNull w Stub.rejected (Some "t0")
           eq_refl eq_refl).
Defined.

Lemma login_keeps_equivalence_witness :
  let api := Stub.apiService (Normal Stub.accepted) in
  let w := Stub.world initialState None in
  auth_iff_user (store w)
  ∧ answers_with_user (api_login api VNull (api_state w)).1 = true
  ∧ auth_iff_user (store (login api VNull w).2).
Proof.
  intros api w.
  assert (Hinv : auth_iff_user (store w)) by (split; discriminate).
  split; [exact Hinv |]. split; [by vm_compute |].
  exact (login_keeps_equivalence api VNull w Hinv ltac:(by vm_compute)).
Defined.

Lemma register_keeps_equivalence_witness :
  let api := Stub.apiService (Throw VNull) in
  let w := Stub.world Sample.signedIn (Some "t0") in
  auth_iff_user (store w)
  ∧ answers_with_user (api_register api VNull (api_state w)).1 = true
  ∧ auth_iff_user (store (register api VNull w).2).
Proof.
  intros api w.
  assert (Hinv : auth_iff_user (store w)) by (by split).
  split; [exact Hinv |]. split; [reflexivity |].
  exact (register_keeps_equivalence api VNull w Hinv eq_refl).
Defined.

Lemma loadUser_keeps_equivalence_witness :
  let api := Stub.apiService (Normal (VObj Sample.profile)) in
  let w := mount (Some "t0") in
  auth_iff_user (store w)
  ∧ (∀ st, answers_with_profile (getProfile api st).1 = true)
  ∧ auth_iff_user (store (loadUser api w).2).
Proof.
  intros api w.
  assert (Hinv : auth_iff_user (store w)) by (split; discriminate).
  split; [exact Hinv |]. split; [intros st; reflexivity |].
  exact (loadUser_keeps_equivalence api w Hinv (λ st, eq_refl)).
Defined.

Lemma quiet_actions_keep_equivalence_witness :
  let api := Stub.apiService (Throw Stub.rejected) in
  let w := Stub.world Sample.signedIn (Some "t0") in
  auth_iff_user (store w)
  ∧ auth_iff_user (store (logout api w).2)
  ∧ auth_iff_user (store (clearError w).2)
  ∧ auth_iff_user (store (forgotPassword api VNull w).2)
  ∧ auth_iff_user (store (resetPassword api VNull w).2).
Proof.
  intros api w.
  assert (Hinv : auth_iff_user (store w)) by (by split).
  split; [exact Hinv |].
  exact (quiet_actions_keep_equivalence api VNull w Hinv).
Defined.

